(** * Tariff Bubble Simulator: the loader, the impact calculator and the renderer

    A shallow embedding of [tariff_cpi_app.py], a Streamlit script that is
    re-executed top to bottom on every change of the tariff slider.

    Numbers.  The script computes on pandas [float64] columns.  Here a column
    value is an exact rational ([Q]): rounding, infinities and the NaN that
    arithmetic on infinities yields are outside the model.  The NaN that the
    script meets structurally is kept: an unparseable or empty cell (before
    [fillna]) and the maximum or mean of an empty column are [None].  The
    worked examples on the demo table are evaluated on binary64 as well
    ([Binary64]).

    Tables.  A [DataFrame] is its column labels and its rows of cells, as
    [pd.read_csv] delivers them; the render loop and the summary table work
    on the three needed columns, a list of [CategoryRecord].  [pd.read_csv]
    makes the labels of a frame distinct.  Renaming an unnamed first column
    to "Category" breaks this when the file has a "Category" column too;
    pandas then selects both columns, which [select] does not follow, so a
    statement that takes a frame through [select] asks for distinct labels.

    Effects.  Every Streamlit call that shows something is an [Event]; one run
    of the script is the list of its events and the way it ended. *)

From Stdlib Require Import Floats QArith Qabs Qminmax Lqa.
From stdpp Require Import gmap strings list sorting.

Local Open Scope string_scope.

(** ** Rational comparisons as the script's boolean tests *)

Definition Qltb (x y : Q) : bool :=
  match (x ?= y)%Q with Lt => true | _ => false end.

#[global] Instance Qle_decision (x y : Q) : Decision (x <= y)%Q.
Proof.
  destruct (Qlt_le_dec y x) as [H | H].
  - right. apply Qlt_not_le, H.
  - left. exact H.
Defined.

(** ** pandas: cells, series and frames *)

Module Pandas.

(** A cell as [read_csv] leaves it: a number in a numeric column, text in
    an [object] column, NaN where the field is empty or the row is short. *)
Inductive Cell : Type :=
| CNum (q : Q)
| CStr (s : string)
| CNaN.

Record DataFrame : Type := mkFrame {
  columns : list string;
  rows : list (list Cell)
}.

(** Position of the first column carrying a label. *)
Fixpoint get_loc (label : string) (cols : list string) : option nat :=
  match cols with
  | [] => None
  | c :: cols' =>
      if String.eqb c label then Some 0%nat
      else S <$> get_loc label cols'
  end.

(** [row[label]]: a field that the row does not reach is NaN. *)
Definition at_label (cols : list string) (label : string) (row : list Cell) : Cell :=
  match get_loc label cols with
  | Some i => default CNaN (row !! i)
  | None => CNaN
  end.

(** [raw.rename(columns={old: new})] *)
Definition rename (old new : string) (raw : DataFrame) : DataFrame :=
  mkFrame ((λ c, if String.eqb c old then new else c) <$> columns raw) (rows raw).

(** [Series.max()]: NaN on an empty series. *)
Fixpoint series_max (xs : list Q) : option Q :=
  match xs with
  | [] => None
  | x :: xs' =>
      Some (match series_max xs' with
            | None => x
            | Some m => Qmax x m
            end)
  end.

Definition series_sum (xs : list Q) : Q := foldr Qplus 0%Q xs.

(** [Series.mean()]: NaN on an empty series. *)
Definition series_mean (xs : list Q) : option Q :=
  match xs with
  | [] => None
  | _ => Some (series_sum xs / inject_Z (Z.of_nat (length xs)))%Q
  end.

(** [Series.clip(lower, upper)] on one value. *)
Definition clip (lower upper x : Q) : Q := Qmin upper (Qmax lower x).

(** [np.sign] *)
Definition np_sign (x : Q) : Q :=
  match (x ?= 0)%Q with
  | Lt => (-1)%Q
  | Eq => 0%Q
  | Gt => 1%Q
  end.

End Pandas.
Import Pandas.

(** ** The data model *)

(** One row of [df] after the loader: the three needed columns. *)
Record CategoryRecord : Type := mkRecord {
  Category : string;
  PreModelCorrelation : Q;
  PostModelImportance : Q
}.

(** A row of [df] once the calculator has added its columns. *)
Record ImpactRow : Type := mkImpact {
  record : CategoryRecord;
  EstimatedCPIChange : Q;
  AbsImpact : Q;
  BubbleSize : Q
}.

(** ** Static lookup tables of the renderer *)

Definition emoji_map : gmap string string :=
  list_to_map [
    ("Transportation", "🚗");
    ("Food", "🍎");
    ("Housing", "🏠");
    ("Apparel", "👕");
    ("Medical", "🏥");
    ("All Other Services Goods", "🧰")
  ].

Definition display_name_map : gmap string string :=
  list_to_map [("All Other Services Goods", "Services")].

(** Defined by the script and read nowhere in it. *)
Definition color_map : gmap string string :=
  list_to_map [
    ("Transportation", "#1f77b4");
    ("Food", "#2ca02c");
    ("Housing", "#9467bd");
    ("Apparel", "#ff7f0e");
    ("Medical", "#d62728");
    ("All Other Services Goods", "#17becf")
  ].

Definition direction_color_map : gmap string string :=
  list_to_map [
    ("positive", "#2ca02c");
    ("negative", "#d62728");
    ("neutral", "#7f7f7f")
  ].

Definition positions : gmap string (Q * Q) :=
  list_to_map [
    ("Food", (0.0, 1.0)%Q);
    ("Apparel", (1.0, 1.0)%Q);
    ("Transportation", (2.0, 1.0)%Q);
    ("Housing", (0.3, 0.0)%Q);
    ("Medical", (1.3, 0.0)%Q);
    ("All Other Services Goods", (2.3, 0.0)%Q)
  ].

(** ** Impact calculator *)

Definition neutral_threshold : Q := 0.02.

(** [sign = np.sign(corr)], then [sign[np.abs(corr) < neutral_threshold] = 0.0]. *)
Definition sign (r : CategoryRecord) : Q :=
  if Qltb (Qabs (PreModelCorrelation r)) neutral_threshold then 0%Q
  else np_sign (PreModelCorrelation r).

Definition estimated_cpi_change (tariff_change : Q) (r : CategoryRecord) : Q :=
  (tariff_change * PostModelImportance r * sign r)%Q.

Definition max_tariff_magnitude : Q := Qmax (Qabs (-10.0)) (Qabs 10.0).

Definition max_sensitivity (df : list CategoryRecord) : option Q :=
  series_max (PostModelImportance <$> df).

(** NaN when the table is empty, like the maximum it is computed from. *)
Definition max_possible_impact (df : list CategoryRecord) : option Q :=
  Qmult max_tariff_magnitude <$> max_sensitivity df.

(** [(df["Abs impact"] / max_possible_impact).clip(0.0, 1.0)] on one row. *)
Definition impact_scale (max_impact abs_impact : Q) : Q :=
  clip 0.0 1.0 (abs_impact / max_impact).

(** The two branches of [if max_possible_impact > 0]; a NaN compares false. *)
Definition bubble_size (max_impact : option Q) (abs_impact : Q) : Q :=
  match max_impact with
  | Some m =>
      if Qltb 0 m then (40 + impact_scale m abs_impact * 120)%Q
      else 40%Q
  | None => 40%Q
  end.

Definition impact_row (tariff_change : Q) (df : list CategoryRecord)
    (r : CategoryRecord) : ImpactRow :=
  let change := estimated_cpi_change tariff_change r in
  mkImpact r change (Qabs change) (bubble_size (max_possible_impact df) (Qabs change)).

Definition calculate (tariff_change : Q) (df : list CategoryRecord) : list ImpactRow :=
  impact_row tariff_change df <$> df.

(** ** Renderer *)

(** What one [go.Scatter] trace of the figure carries.  The text inside the
    bubble is the f-string [emoji display_name<br>change pp]; its three
    components are [marker_emoji], [marker_name] and [marker_change]. *)
Record Marker : Type := mkMarker {
  marker_x : Q;
  marker_y : Q;
  marker_size : Q;
  marker_color : string;
  marker_emoji : string;
  marker_name : string;
  marker_change : Q;
  marker_sensitivity : Q
}.

Definition position_of (category : string) : Q * Q :=
  default (0.0, 0.0)%Q (positions !! category).

Definition display_name_of (category : string) : string :=
  default category (display_name_map !! category).

Definition emoji_of (category : string) : string :=
  default "🔵" (emoji_map !! category).

(** The [if / elif / else] on the row's estimated change. *)
Definition direction_color (change : Q) : string :=
  if Qltb 0 change then direction_color_map !!! "positive"
  else if Qltb change 0 then direction_color_map !!! "negative"
  else direction_color_map !!! "neutral".

(** One pass of [for _, row in df.iterrows()]. *)
Definition add_trace (row : ImpactRow) : Marker :=
  let category := Category (record row) in
  let '(x, y) := position_of category in
  mkMarker x y (BubbleSize row)
    (direction_color (EstimatedCPIChange row))
    (emoji_of category) (display_name_of category)
    (EstimatedCPIChange row) (PostModelImportance (record row)).

Definition fig (df : list ImpactRow) : list Marker := add_trace <$> df.

(** The three phrasings of the headline. *)
Inductive Headline : Type :=
| PricePressureUp (avg_effect : Q)
| PricePressureDown (avg_effect : Q)
| Neutral.

Definition avg_effect (df : list ImpactRow) : option Q :=
  series_mean (EstimatedCPIChange <$> df).

(** A NaN mean fails both comparisons and lands in the [else]. *)
Definition headline (avg : option Q) : Headline :=
  match avg with
  | Some a =>
      if Qltb 0 a then PricePressureUp a
      else if Qltb a 0 then PricePressureDown a
      else Neutral
  | None => Neutral
  end.

Record TableRow : Type := mkTableRow {
  table_category : string;
  table_change : Q;
  table_importance : Q
}.

Definition table_row (row : ImpactRow) : TableRow :=
  let x := Category (record row) in
  mkTableRow (emoji_of x ++ " " ++ display_name_of x)
    (EstimatedCPIChange row) (PostModelImportance (record row)).

(** Order of [sort_values(..., ascending=False)]. *)
Definition descending (a b : TableRow) : Prop :=
  (table_change b <= table_change a)%Q.

#[global] Instance descending_decision (a b : TableRow) : Decision (descending a b).
Proof. unfold descending. apply _. Defined.

(** pandas sorts with an unstable quicksort by default, so the order among
    rows of equal change is not fixed by the script; merge sort stands for it. *)
Definition table (df : list ImpactRow) : list TableRow :=
  merge_sort descending (table_row <$> df).

(** A category that none of the static lookup tables knows. *)
Definition unmapped (category : string) : Prop :=
  positions !! category = None ∧ emoji_map !! category = None ∧
  display_name_map !! category = None ∧ color_map !! category = None.

(** ** Data loader *)

(** What a run finds around it: the CSV files that exist, by path relative to
    the script's directory and already read by [pd.read_csv], and the upload
    (file name and content) if the user made one. *)
Record Session : Type := mkSession {
  files : gmap string DataFrame;
  uploaded : option (string * DataFrame)
}.

Definition candidate_paths : list string := [
  "results/tariff_sensitivity_comparison.csv";
  "tariff_sensitivity_comparison.csv";
  "figures/tariff_sensitivity_comparison.csv"
].

Definition demo : DataFrame :=
  mkFrame
    ["Category"; "Pre-Model Correlation"; "Post-Model Importance (RF)"]
    [ [CStr "Transportation"; CNum 0.12; CNum 0.28];
      [CStr "Food"; CNum 0.08; CNum 0.21];
      [CStr "Housing"; CNum 0.03; CNum 0.18];
      [CStr "Apparel"; CNum 0.1; CNum 0.14];
      [CStr "Medical"; CNum 0.02; CNum 0.08];
      [CStr "All Other Services Goods"; CNum 0.06; CNum 0.11] ].

(** The [for path in candidate_paths] loop: the first path that exists. *)
Fixpoint first_existing (fs : gmap string DataFrame) (paths : list string)
    : option (DataFrame * string) :=
  match paths with
  | [] => None
  | path :: paths' =>
      match fs !! path with
      | Some frame => Some (frame, path)
      | None => first_existing fs paths'
      end
  end.

Definition load_sensitivity_data (s : Session) : DataFrame * string :=
  match first_existing (files s) candidate_paths with
  | Some found => found
  | None =>
      match uploaded s with
      | Some (name, frame) => (frame, "uploaded CSV (" ++ name ++ ")")
      | None => (demo, "built-in demo dataset")
      end
  end.

(** The renaming of an unnamed first column; [raw.columns[0]] raises
    [IndexError] on a frame without columns, which is [None] here. *)
Definition name_first_column (raw : DataFrame) : option DataFrame :=
  match columns raw with
  | [] => None
  | first :: _ =>
      if String.prefix "Unnamed" first || String.eqb first ""
      then Some (rename first "Category" raw)
      else Some raw
  end.

Definition needed_cols : list string :=
  ["Category"; "Pre-Model Correlation"; "Post-Model Importance (RF)"].

(** [[col for col in needed_cols if col not in raw.columns]] *)
Definition missing (raw : DataFrame) : list string :=
  filter (λ col, col ∉ columns raw) needed_cols.

Section Coercion.

(** pandas' reading of a text cell as a number ([None] when it is not one)
    and Python's [str] of a number: library code, taken as given. *)
Variable parse_float : string → option Q.
Variable str_of_float : Q → string.

(** [pd.to_numeric(cell, errors="coerce")]: NaN instead of an exception. *)
Definition to_numeric (c : Cell) : option Q :=
  match c with
  | CNum q => Some q
  | CStr s => parse_float s
  | CNaN => None
  end.

Definition fillna (value : Q) (x : option Q) : Q := default value x.

(** [astype(str)] *)
Definition astype_str (c : Cell) : string :=
  match c with
  | CStr s => s
  | CNum q => str_of_float q
  | CNaN => "nan"
  end.

(** [df = raw[needed_cols].copy()] and the three column conversions, row by
    row, for a frame whose labels are distinct. *)
Definition select_row (cols : list string) (row : list Cell) : CategoryRecord :=
  mkRecord
    (astype_str (at_label cols "Category" row))
    (fillna 0.0 (to_numeric (at_label cols "Pre-Model Correlation" row)))
    (fillna 0.0 (to_numeric (at_label cols "Post-Model Importance (RF)" row))).

Definition select (raw : DataFrame) : list CategoryRecord :=
  select_row (columns raw) <$> rows raw.

(** ** The script as a whole *)

(** What a run shows, in order. *)
Inductive Event : Type :=
| Title (text : string)
| Caption (text : string)
| Info (text : string)
| Header (text : string)
| Subheader (text : string)
| Markdown (text : string)
| Error (missing_columns : list string)
| PlotlyChart (figure : list Marker)
| Success (message : Headline)
| Dataframe (data : list TableRow).

(** How a run ends: at the last line, at [st.stop()], or on an exception. *)
Inductive Exit : Type :=
| Completed
| Stopped
| Raised (exception : string).

Definition nl : string := String (Ascii.ascii_of_nat 10) "".

(** Everything shown before the columns are looked at.  The slider and the
    upload control are inputs of the run, not events. *)
Definition preamble (data_source : string) : list Event := [
  Title "Tariff Bubble Simulator (Easy Mode)";
  Caption "One-slider learning tool: move tariff up or down and watch category bubbles change.";
  Info ("**CPI** = average prices people pay." ++ nl ++ nl ++
        "**Tariff** = tax on imported goods." ++ nl ++ nl ++
        "Bigger bubble means bigger estimated price effect in that category.");
  Markdown "---";
  Subheader "Data Source";
  Caption ("Data source: **" ++ data_source ++ "**")
].

Definition how_to_read : string :=
  "**How to read this:**" ++ nl ++
  "- Move the slider to change tariff up/down." ++ nl ++
  "- Each bubble is one category." ++ nl ++
  "- Bigger circle = bigger estimated effect." ++ nl ++
  "- Number inside bubble = estimated CPI change in percentage points.".

Definition script (s : Session) (tariff_change : Q) : list Event * Exit :=
  let '(raw, data_source) := load_sensitivity_data s in
  match name_first_column raw with
  | None => (preamble data_source, Raised "IndexError")
  | Some raw =>
      match missing raw with
      | _ :: _ => (preamble data_source ++ [Error (missing raw)], Stopped)%list
      | [] =>
          let df := calculate tariff_change (select raw) in
          (preamble data_source ++ [
             Header "Adjust Tariff";
             PlotlyChart (fig df);
             Success (headline (avg_effect df));
             Subheader "Numbers Behind the Bubbles";
             Dataframe (table df);
             Markdown how_to_read
           ], Completed)%list
      end
  end.

End Coercion.

(** ** The estimate on binary64

    The sign and the estimated change as the script computes them, on the
    kernel's IEEE 754 binary64 numbers; a decimal literal denotes the nearest
    binary64 value, as in Python. *)

#[local] Set Warnings "-inexact-float".

Module Binary64.

Definition np_sign (x : float) : float :=
  if (0 <? x)%float then 1%float
  else if (x <? 0)%float then (-1)%float
  else if (x =? 0)%float then 0%float
  else nan.

Definition neutral_threshold : float := 0.02%float.

Definition sign (correlation : float) : float :=
  if (abs correlation <? neutral_threshold)%float then 0%float
  else np_sign correlation.

Definition estimated_cpi_change (tariff_change correlation importance : float) : float :=
  (tariff_change * importance * sign correlation)%float.

End Binary64.

(** ** Inputs on which the statements below are exercised *)

Definition example_parse (s : string) : option Q :=
  if String.eqb s "0.5" then Some 0.5%Q else None.

Definition example_str (q : Q) : string := "0".

(** A table with a positive, a neutral-band and a negative correlation. *)
Definition example_df : list CategoryRecord := [
  mkRecord "Transportation" 0.12 0.28;
  mkRecord "Energy" 0.01 0.3;
  mkRecord "Food" (-0.08) 0.21
].

(** An upload saved with its index and without the importance column. *)
Definition example_partial : Session :=
  mkSession ∅
    (Some ("partial.csv",
           mkFrame ["Unnamed: 0"; "Pre-Model Correlation"]
                   [[CStr "Food"; CStr "n/a"]])).

(** A file found at the second candidate path: an unnamed first column, a
    text that is no number, an empty cell, a short row and a column that the
    script does not need. *)
Definition example_dirty : Session :=
  mkSession
    {[ "tariff_sensitivity_comparison.csv" :=
         mkFrame
           ["Unnamed: 0"; "Notes"; "Pre-Model Correlation"; "Post-Model Importance (RF)"]
           [ [CStr "Energy"; CStr "new"; CStr "n/a"; CStr "0.5"];
             [CStr "Food"; CNaN; CNum 0.08; CNaN];
             [CStr "Housing"; CStr "old"; CNum (-0.03)] ] ]}
    None.

(** No file and no upload: the run falls back on the demo table. *)
Definition example_fallback : Session := mkSession ∅ None.

(** ** Further decidable tests *)

#[global] Instance Qlt_decision (x y : Q) : Decision (x < y)%Q.
Proof.
  destruct (Qlt_le_dec x y) as [H | H].
  - left. exact H.
  - right. apply Qle_not_lt, H.
Defined.

(** * Properties *)

(** ** Rational arithmetic used by the calculator *)

Section QFacts.
Local Open Scope Q_scope.

Lemma Qltb_lt (x y : Q) : Qltb x y = true ↔ x < y.
Proof.
  unfold Qltb. rewrite Qlt_alt. destruct (x ?= y); split; congruence.
Qed.

Lemma Qltb_ge (x y : Q) : Qltb x y = false ↔ y <= x.
Proof.
  rewrite <- not_true_iff_false, Qltb_lt. split.
  - apply Qnot_lt_le.
  - intros H1 H2. apply (Qlt_not_le _ _ H2 H1).
Qed.


Lemma clip_zero (x : Q) : clip 0.0 1.0 x == 0 ↔ x <= 0.
Proof.
  unfold clip.
  destruct (Q.max_spec 0.0 x) as [[? E1] | [? E1]];
    destruct (Q.min_spec 1.0 (Qmax 0.0 x)) as [[? E2] | [? E2]];
    rewrite E2 in *; try rewrite E1 in *; split; lra.
Qed.

Lemma clip_mono (x y : Q) : x <= y → clip 0.0 1.0 x <= clip 0.0 1.0 y.
Proof.
  intros Hxy. unfold clip.
  apply Q.min_le_compat_l, Q.max_le_compat_l, Hxy.
Qed.
End QFacts.

(** ** The maximum of a column *)

Section MaxFacts.
Local Open Scope Q_scope.

Lemma series_max_nonempty (x : Q) (xs : list Q) :
  ∃ m, series_max (x :: xs) = Some m.
Proof. simpl. eauto. Qed.




End MaxFacts.

(** ** Rows of the calculator *)

Section CalculatorFacts.
Local Open Scope Q_scope.


Lemma Qdiv_mono (a b d : Q) : 0 < d → a <= b → a / d <= b / d.
Proof.
  intros Hd Hab. unfold Qdiv.
  apply Qmult_le_compat_r; [exact Hab |].
  apply Qlt_le_weak, Qinv_lt_0_compat, Hd.
Qed.

Lemma Qabs_zero_iff (x : Q) : Qabs x == 0 ↔ x == 0.
Proof.
  apply Qabs_case; intros; split; lra.
Qed.

Lemma calculate_lookup (t : Q) (df : list CategoryRecord) (i : nat) (row : ImpactRow) :
  calculate t df !! i = Some row ↔
  ∃ r, df !! i = Some r ∧ row = impact_row t df r.
Proof.
  unfold calculate. rewrite list_lookup_fmap.
  destruct (df !! i) as [r |]; simpl; split.
  - intros [= <-]. eauto.
  - intros (r' & [= <-] & ->). reflexivity.
  - discriminate.
  - intros (r' & [=] & _).
Qed.


Lemma bubble_size_mono (mpi : option Q) (a b : Q) :
  a <= b → bubble_size mpi a <= bubble_size mpi b.
Proof.
  intros Hab. unfold bubble_size. destruct mpi as [m |]; [| lra].
  destruct (Qltb 0 m) eqn:Hm; [| lra].
  apply Qltb_lt in Hm. unfold impact_scale.
  pose proof (clip_mono _ _ (Qdiv_mono a b m Hm Hab)). lra.
Qed.

End CalculatorFacts.

(** * The claims *)

Section Calculator.
Local Open Scope Q_scope.











End Calculator.

Section Renderer.
Local Open Scope Q_scope.

Lemma direction_color_cases (change : Q) :
  (0 < change → direction_color change = "#2ca02c") ∧
  (change < 0 → direction_color change = "#d62728") ∧
  (change == 0 → direction_color change = "#7f7f7f").
Proof.
  unfold direction_color. repeat split; intros H.
  - apply Qltb_lt in H. by rewrite H.
  - assert (Qltb 0 change = false) as -> by (apply Qltb_ge; lra).
    apply Qltb_lt in H. by rewrite H.
  - assert (Qltb 0 change = false) as -> by (apply Qltb_ge; lra).
    assert (Qltb change 0 = false) as -> by (apply Qltb_ge; lra).
    reflexivity.
Qed.

(** C4, as the claim has it, fails on the colour.  The render loop looks no
    colour up by category: an unmapped category, here "Energy", is drawn
    green under a tariff rise and red under a tariff cut, so no single
    default colour is what unmapped categories fall back to. *)
Lemma unmapped_color_is_not_a_default :
  unmapped "Energy" ∧
  marker_color (add_trace (impact_row 2.0 [mkRecord "Energy" 0.5 0.3]
                             (mkRecord "Energy" 0.5 0.3))) = "#2ca02c" ∧
  marker_color (add_trace (impact_row (-2.0) [mkRecord "Energy" 0.5 0.3]
                             (mkRecord "Energy" 0.5 0.3))) = "#d62728" ∧
  ¬ ∃ default_color : string,
      ∀ (tariff_change : Q) (df : list CategoryRecord) (row : ImpactRow),
        row ∈ calculate tariff_change df →
        unmapped (Category (record row)) →
        marker_color (add_trace row) = default_color.
Proof.
  assert (unmapped "Energy") as Hu by (repeat split).
  split; [exact Hu |]. split; [reflexivity |]. split; [reflexivity |].
  intros [c Hc].
  pose (r := mkRecord "Energy" 0.5 0.3).
  pose proof (Hc 2.0 [r] (impact_row 2.0 [r] r) (list_elem_of_here _ _) Hu) as Hup.
  pose proof (Hc (-2.0) [r] (impact_row (-2.0) [r] r) (list_elem_of_here _ _) Hu) as Hdown.
  vm_compute in Hup, Hdown. congruence.
Qed.

(** C4, amended.  The figure has one marker per row of the table, in row
    order, named after the row's category (its display name).  A category
    absent from the lookup tables is placed at (0, 0), drawn with the generic
    glyph and named by its own label.  The colour of a marker is not looked
    up by category: it is green, red or grey as the row's estimated change
    is positive, negative or zero. *)
Theorem markers_follow_rows (tariff_change : Q) (df : list CategoryRecord) :
  length (fig (calculate tariff_change df)) = length df ∧
  marker_name <$> fig (calculate tariff_change df) =
    (λ r, display_name_of (Category r)) <$> df ∧
  ∀ (i : nat) (r : CategoryRecord),
    df !! i = Some r →
    ∃ m, fig (calculate tariff_change df) !! i = Some m ∧
      (positions !! Category r = None → marker_x m = 0.0 ∧ marker_y m = 0.0) ∧
      (emoji_map !! Category r = None → marker_emoji m = "🔵") ∧
      (display_name_map !! Category r = None → marker_name m = Category r) ∧
      (0 < estimated_cpi_change tariff_change r → marker_color m = "#2ca02c") ∧
      (estimated_cpi_change tariff_change r < 0 → marker_color m = "#d62728") ∧
      (estimated_cpi_change tariff_change r == 0 → marker_color m = "#7f7f7f").
Proof.
  unfold fig, calculate. split; [by rewrite !length_fmap |].
  split.
  - rewrite <- !list_fmap_compose. apply list_fmap_ext.
    intros _ r _. unfold compose, add_trace. cbn [impact_row record].
    by destruct (position_of (Category r)).
  - intros i r Hr. eexists. split.
    + by rewrite !list_lookup_fmap, Hr.
    + unfold add_trace. cbn [impact_row record EstimatedCPIChange BubbleSize].
      destruct (position_of (Category r)) as [x y] eqn:Hpos.
      cbn [marker_x marker_y marker_emoji marker_name marker_color].
      split; [| split; [| split]].
      * intros H. unfold position_of in Hpos. rewrite H in Hpos.
        by injection Hpos as <- <-.
      * intros H. unfold emoji_of. by rewrite H.
      * intros H. unfold display_name_of. by rewrite H.
      * apply direction_color_cases.
Qed.



#[local] Instance descending_total : Total descending.
Proof.
  intros a b. unfold descending.
  destruct (Qlt_le_dec (table_change a) (table_change b)) as [H | H].
  - right. apply Qlt_le_weak, H.
  - left. exact H.
Qed.

#[local] Instance descending_transitive : Transitive descending.
Proof. intros a b c Hab Hbc. unfold descending in *. lra. Qed.

(** C9.  The summary table holds exactly the rows of the table, each as
    (glyph and display name, estimated change, importance), and is sorted by
    estimated change in descending order: every row's change is at least the
    change of every row below it. *)
Theorem summary_table_sorted (tariff_change : Q) (df : list CategoryRecord) :
  table (calculate tariff_change df) ≡ₚ
    (λ r, mkTableRow (emoji_of (Category r) ++ " " ++ display_name_of (Category r))
            (estimated_cpi_change tariff_change r) (PostModelImportance r)) <$> df ∧
  StronglySorted (λ a b, table_change b <= table_change a)
    (table (calculate tariff_change df)).
Proof.
  split.
  - unfold table. rewrite merge_sort_Permutation.
    unfold calculate. rewrite <- list_fmap_compose. reflexivity.
  - apply (StronglySorted_merge_sort descending).
Qed.

End Renderer.

Section Script.
Local Open Scope Q_scope.

Variable parse_float : string → option Q.
Variable str_of_float : Q → string.

Lemma missing_spec (raw : DataFrame) (col : string) :
  col ∈ missing raw ↔ col ∈ needed_cols ∧ col ∉ columns raw.
Proof. unfold missing. rewrite list_elem_of_filter. tauto. Qed.

Lemma missing_nil (raw : DataFrame) :
  missing raw = [] ↔ ∀ col, col ∈ needed_cols → col ∈ columns raw.
Proof.
  split.
  - intros Hnil col Hcol.
    destruct (decide (col ∈ columns raw)) as [| Hout]; [done |].
    assert (col ∈ missing raw) as Hin by (by apply missing_spec).
    rewrite Hnil in Hin. inversion Hin.
  - intros Hall. destruct (missing raw) as [| col rest] eqn:E; [done |].
    assert (col ∈ missing raw) as Hin by (rewrite E; left).
    apply missing_spec in Hin as [Hneeded Hout].
    destruct (Hout (Hall col Hneeded)).
Qed.

Lemma preamble_shows (data_source : string) (e : Event) :
  e ∈ preamble data_source →
  (∀ cols, e ≠ Error cols) ∧ (∀ figure, e ≠ PlotlyChart figure).
Proof.
  unfold preamble. intros He.
  repeat (apply elem_of_cons in He as [-> | He]; [done |]).
  inversion He.
Qed.

Lemma script_stopped (s : Session) (tariff_change : Q) (raw : DataFrame) :
  name_first_column (load_sensitivity_data s).1 = Some raw →
  missing raw ≠ [] →
  script parse_float str_of_float s tariff_change =
    (preamble (load_sensitivity_data s).2 ++ [Error (missing raw)], Stopped)%list.
Proof.
  intros Hname Hmiss. unfold script.
  destruct (load_sensitivity_data s) as [raw0 data_source]. simpl in *.
  rewrite Hname. by destruct (missing raw).
Qed.

Lemma script_completed (s : Session) (tariff_change : Q) (raw : DataFrame) :
  name_first_column (load_sensitivity_data s).1 = Some raw →
  missing raw = [] →
  script parse_float str_of_float s tariff_change =
    (preamble (load_sensitivity_data s).2 ++ [
       Header "Adjust Tariff";
       PlotlyChart (fig (calculate tariff_change (select parse_float str_of_float raw)));
       Success (headline (avg_effect (calculate tariff_change (select parse_float str_of_float raw))));
       Subheader "Numbers Behind the Bubbles";
       Dataframe (table (calculate tariff_change (select parse_float str_of_float raw)));
       Markdown how_to_read
     ], Completed)%list.
Proof.
  intros Hname Hmiss. unfold script.
  destruct (load_sensitivity_data s) as [raw0 data_source]. simpl in *.
  by rewrite Hname, Hmiss.
Qed.

Lemma no_error_after_validation (data_source : string) (tail : list Event) :
  Forall (λ e, ∀ cols, e ≠ Error cols) tail →
  ∀ cols, Error cols ∉ (preamble data_source ++ tail)%list.
Proof.
  intros Htail cols Hcols. apply elem_of_app in Hcols as [Hcols | Hcols].
  - apply preamble_shows in Hcols as [Hcols _]. by apply (Hcols cols).
  - rewrite Forall_forall in Htail. by apply (Htail _ Hcols cols).
Qed.

(** C3.  Once an unnamed first column has been renamed to "Category": if one
    of the three needed columns is absent, the run shows an error naming
    exactly the needed columns that are absent and stops there, without
    drawing a chart; if all three are present, no such error is shown and the
    run does not stop there. *)
Theorem missing_columns_halt (s : Session) (tariff_change : Q) (raw : DataFrame) :
  name_first_column (load_sensitivity_data s).1 = Some raw →
  ((∃ col, col ∈ needed_cols ∧ col ∉ columns raw) →
     script parse_float str_of_float s tariff_change =
       (preamble (load_sensitivity_data s).2 ++ [Error (missing raw)], Stopped)%list ∧
     (∀ col, col ∈ missing raw ↔ col ∈ needed_cols ∧ col ∉ columns raw) ∧
     (∀ figure, PlotlyChart figure ∉ (script parse_float str_of_float s tariff_change).1)) ∧
  ((∀ col, col ∈ needed_cols → col ∈ columns raw) →
     (script parse_float str_of_float s tariff_change).2 ≠ Stopped ∧
     (∀ cols, Error cols ∉ (script parse_float str_of_float s tariff_change).1)).
Proof.
  intros Hname. split.
  - intros (col & Hneeded & Hout).
    assert (missing raw ≠ []) as Hmiss.
    { intros Hnil. apply Hout. by apply (proj1 (missing_nil raw) Hnil). }
    rewrite (script_stopped s tariff_change raw Hname Hmiss).
    split; [reflexivity |]. split; [apply missing_spec |].
    intros figure Hfig. cbn [fst] in Hfig.
    apply elem_of_app in Hfig as [Hfig | Hfig].
    + apply preamble_shows in Hfig as [_ Hfig]. by apply (Hfig figure).
    + apply list_elem_of_singleton in Hfig. discriminate.
  - intros Hall. apply missing_nil in Hall.
    rewrite (script_completed s tariff_change raw Hname Hall). cbn [fst snd].
    split; [discriminate |]. apply no_error_after_validation.
    by repeat constructor.
Qed.


(** C8.  With no file and no upload the run works on the six-row demo table.
    There, at tariff change 2.0, the Transportation row (correlation 0.12,
    importance 0.28) has sign +1 and estimated change 0.56; at tariff change
    -5.0, the Food row (correlation 0.08, importance 0.21) has sign +1 and
    estimated change -1.05. *)
Theorem demo_examples :
  load_sensitivity_data (mkSession ∅ None) = (demo, "built-in demo dataset") ∧
  length (select parse_float str_of_float demo) = 6%nat ∧
  (∃ row, calculate 2.0 (select parse_float str_of_float demo) !! 0%nat = Some row ∧
     Category (record row) = "Transportation" ∧
     PreModelCorrelation (record row) = 0.12 ∧
     PostModelImportance (record row) = 0.28 ∧
     sign (record row) = 1 ∧
     EstimatedCPIChange row == 0.56) ∧
  (∃ row, calculate (-5.0) (select parse_float str_of_float demo) !! 1%nat = Some row ∧
     Category (record row) = "Food" ∧
     PreModelCorrelation (record row) = 0.08 ∧
     PostModelImportance (record row) = 0.21 ∧
     sign (record row) = 1 ∧
     EstimatedCPIChange row == -1.05).
Proof.
  split; [reflexivity |]. split; [reflexivity |].
  split; eexists; (split; [reflexivity |]); repeat split.
Qed.

End Script.

(** The same two examples on binary64: the computed values are the numbers
    that the literals 0.56 and -1.05 denote. *)
Lemma demo_examples_binary64 :
  (Binary64.sign 0.12 =? 1)%float = true ∧
  (Binary64.estimated_cpi_change 2.0 0.12 0.28 =? 0.56)%float = true ∧
  (Binary64.sign 0.08 =? 1)%float = true ∧
  (Binary64.estimated_cpi_change (-5.0) 0.08 0.21 =? -1.05)%float = true.
Proof. repeat split. Qed.

Section Witnesses.
Local Open Scope Q_scope.

Lemma missing_columns_halt_witness :
  script example_parse example_str example_partial 2.0 =
    (preamble "uploaded CSV (partial.csv)" ++
       [Error ["Post-Model Importance (RF)"]], Stopped)%list ∧
  (script example_parse example_str example_fallback 2.0).2 ≠ Stopped.
Proof.
  split.
  - destruct (missing_columns_halt example_parse example_str example_partial 2.0
                (mkFrame ["Category"; "Pre-Model Correlation"] [[CStr "Food"; CStr "n/a"]])
                eq_refl) as [Hhalt _].
    destruct Hhalt as [Hrun _]; [| exact Hrun].
    exists "Post-Model Importance (RF)". split; compute_done.
  - destruct (missing_columns_halt example_parse example_str example_fallback 2.0
                demo eq_refl) as [_ Hrun].
    apply Hrun. apply Forall_forall. compute_done.
Defined.


(** The records that the loader makes of [example_dirty]. *)
Example dirty_cells_become_zero :
  ∃ raw, name_first_column (load_sensitivity_data example_dirty).1 = Some raw ∧
    select example_parse example_str raw = [
      mkRecord "Energy" 0.0 0.5;
      mkRecord "Food" 0.08 0.0;
      mkRecord "Housing" (-0.03) 0.0
    ].
Proof. eexists. split; reflexivity. Qed.

End Witnesses.

(** * Further properties of the calculator *)

Section CalculatorBehaviour.
Local Open Scope Q_scope.


Lemma bubble_size_wd (mpi : option Q) (a b : Q) :
  a == b → bubble_size mpi a == bubble_size mpi b.
Proof.
  intros E. apply Qle_antisym; apply bubble_size_mono; lra.
Qed.

Lemma bubble_size_at_zero (mpi : option Q) (a : Q) :
  a == 0 → bubble_size mpi a == 40.
Proof.
  intros E. rewrite (bubble_size_wd mpi a 0 E).
  unfold bubble_size. destruct mpi as [m |]; [| reflexivity].
  destruct (Qltb 0 m) eqn:Hm; [| reflexivity].
  apply Qltb_lt in Hm. unfold impact_scale.
  assert (clip 0.0 1.0 (0 / m) == 0) as ->; [| lra].
  apply clip_zero. unfold Qdiv. lra.
Qed.




Lemma series_sum_zero (xs : list Q) :
  Forall (λ x, x == 0) xs → series_sum xs == 0.
Proof.
  induction 1 as [| x xs Hx _ IH]; [reflexivity |].
  cbn [series_sum foldr]. fold (series_sum xs). lra.
Qed.


(** When every estimated change of the table is zero. *)
Lemma all_changes_zero (tariff_change : Q) (df : list CategoryRecord) :
  (∀ r, r ∈ df → estimated_cpi_change tariff_change r == 0) →
  (∀ row, row ∈ calculate tariff_change df →
     EstimatedCPIChange row == 0 ∧ BubbleSize row == 40 ∧
     marker_color (add_trace row) = "#7f7f7f") ∧
  headline (avg_effect (calculate tariff_change df)) = Neutral.
Proof.
  intros Hzero. split.
  - intros row Hrow. unfold calculate in Hrow.
    apply list_elem_of_fmap in Hrow as (r & -> & Hr).
    unfold impact_row. cbn [EstimatedCPIChange BubbleSize].
    specialize (Hzero r Hr). split; [exact Hzero |]. split.
    + apply bubble_size_at_zero, Qabs_zero_iff, Hzero.
    + unfold add_trace. cbn [record EstimatedCPIChange].
      destruct (position_of (Category r)). cbn [marker_color].
      by apply direction_color_cases.
  - unfold avg_effect, calculate. rewrite <- list_fmap_compose.
    destruct df as [| r df]; [reflexivity |].
    set (xs := _ <$> r :: df).
    assert (series_sum xs == 0) as Hsum.
    { apply series_sum_zero, Forall_fmap, Forall_forall.
      intros r' Hr'. by apply Hzero. }
    unfold series_mean. subst xs. cbn [fmap list_fmap].
    set (mean := (_ / _)).
    assert (mean == 0) as Hmean.
    { subst mean. cbn [fmap list_fmap] in Hsum. rewrite Hsum.
      unfold Qdiv. ring. }
    unfold headline.
    assert (Qltb 0 mean = false) as -> by (apply Qltb_ge; lra).
    assert (Qltb mean 0 = false) as -> by (apply Qltb_ge; lra).
    reflexivity.
Qed.

End CalculatorBehaviour.

Section CalculatorExtras.
Local Open Scope Q_scope.



(** X2.  When every importance of the table is zero, every estimated change
    is zero, every bubble has size 40 and is grey, and the headline is the
    neutral one, for every tariff change. *)
Theorem zero_sensitivities_are_neutral (tariff_change : Q) (df : list CategoryRecord) :
  (∀ r, r ∈ df → PostModelImportance r == 0) →
  (∀ row, row ∈ calculate tariff_change df →
     EstimatedCPIChange row == 0 ∧ BubbleSize row == 40 ∧
     marker_color (add_trace row) = "#7f7f7f") ∧
  headline (avg_effect (calculate tariff_change df)) = Neutral.
Proof.
  intros Himp. apply all_changes_zero.
  intros r Hr. unfold estimated_cpi_change. rewrite (Himp r Hr). ring.
Qed.

Lemma zero_sensitivities_are_neutral_witness :
  headline (avg_effect (calculate 7.5 [mkRecord "Food" 0.08 0; mkRecord "Energy" (-0.5) 0]))
    = Neutral.
Proof.
  apply (zero_sensitivities_are_neutral 7.5).
  apply Forall_forall. repeat constructor.
Defined.

(** X3.  Reversing the tariff change reverses every estimated change and
    leaves every bubble size as it was; a green bubble turns red and a red
    one green. *)
Theorem opposite_tariff_mirrors (tariff_change : Q) (df : list CategoryRecord)
    (i : nat) (row row' : ImpactRow) :
  calculate tariff_change df !! i = Some row →
  calculate (- tariff_change) df !! i = Some row' →
  EstimatedCPIChange row' == - EstimatedCPIChange row ∧
  BubbleSize row' == BubbleSize row ∧
  (marker_color (add_trace row) = "#2ca02c" ↔ marker_color (add_trace row') = "#d62728") ∧
  (marker_color (add_trace row) = "#d62728" ↔ marker_color (add_trace row') = "#2ca02c").
Proof.
  intros H1 H2.
  apply calculate_lookup in H1 as (r & Hr & ->).
  apply calculate_lookup in H2 as (r2 & Hr2 & ->).
  rewrite Hr in Hr2. injection Hr2 as <-.
  assert (estimated_cpi_change (- tariff_change) r ==
          - estimated_cpi_change tariff_change r) as E
    by (unfold estimated_cpi_change; ring).
  unfold impact_row, add_trace. cbn [record EstimatedCPIChange BubbleSize].
  destruct (position_of (Category r)). cbn [marker_color].
  split; [exact E |]. split.
  { apply bubble_size_wd. rewrite E. apply Qabs_opp. }
  set (x := estimated_cpi_change tariff_change r) in *.
  set (y := estimated_cpi_change (- tariff_change) r) in *.
  pose proof (direction_color_cases x) as (Hxp & Hxn & Hxz).
  pose proof (direction_color_cases y) as (Hyp & Hyn & Hyz).
  destruct (Q_dec x 0) as [[Hx | Hx] | Hx].
  - rewrite (Hxn Hx), Hyp by lra. split; split; congruence.
  - rewrite (Hxp Hx), Hyn by lra. split; split; congruence.
  - rewrite (Hxz Hx), Hyz by lra. split; split; congruence.
Qed.

Lemma opposite_tariff_mirrors_witness :
  BubbleSize (impact_row (- 2.5) example_df (mkRecord "Food" (-0.08) 0.21)) ==
  BubbleSize (impact_row 2.5 example_df (mkRecord "Food" (-0.08) 0.21)).
Proof.
  apply (opposite_tariff_mirrors 2.5 example_df 2
           (impact_row 2.5 example_df (mkRecord "Food" (-0.08) 0.21))
           (impact_row (- 2.5) example_df (mkRecord "Food" (-0.08) 0.21))
           eq_refl eq_refl).
Defined.

End CalculatorExtras.

Section CalculatorBounds.
Local Open Scope Q_scope.







End CalculatorBounds.

Section CalculatorDirections.
Local Open Scope Q_scope.





End CalculatorDirections.

(** * Further properties of the loader *)

Section LoaderExtras.
Local Open Scope Q_scope.

(** X9.  The loader takes the first of the three candidate paths that
    exists, in their order, and then ignores the upload; without any of the
    files it takes the upload, named as such; with neither it takes the
    built-in demo table. *)
Theorem load_order (s : Session) :
  (∀ frame, files s !! "results/tariff_sensitivity_comparison.csv" = Some frame →
     load_sensitivity_data s = (frame, "results/tariff_sensitivity_comparison.csv")) ∧
  (files s !! "results/tariff_sensitivity_comparison.csv" = None →
     (∀ frame, files s !! "tariff_sensitivity_comparison.csv" = Some frame →
        load_sensitivity_data s = (frame, "tariff_sensitivity_comparison.csv")) ∧
     (files s !! "tariff_sensitivity_comparison.csv" = None →
        (∀ frame, files s !! "figures/tariff_sensitivity_comparison.csv" = Some frame →
           load_sensitivity_data s = (frame, "figures/tariff_sensitivity_comparison.csv")) ∧
        (files s !! "figures/tariff_sensitivity_comparison.csv" = None →
           (∀ name frame, uploaded s = Some (name, frame) →
              load_sensitivity_data s = (frame, "uploaded CSV (" ++ name ++ ")")) ∧
           (uploaded s = None →
              load_sensitivity_data s = (demo, "built-in demo dataset"))))).
Proof.
  unfold load_sensitivity_data, candidate_paths. cbn [first_existing].
  split; [by intros frame -> |]. intros ->.
  split; [by intros frame -> |]. intros ->.
  split; [by intros frame -> |]. intros ->.
  split; [by intros name frame -> | by intros ->].
Qed.

(** X10.  Naming the first column: a first label that starts with "Unnamed"
    or is empty becomes "Category", so that "Category" is then a column of
    the frame; any other first label leaves the frame as it is.  The rows
    and the number of columns are never changed, and labels other than the
    first's are kept. *)
Theorem name_first_column_spec (raw raw' : DataFrame) (first : string) (rest : list string) :
  columns raw = first :: rest →
  name_first_column raw = Some raw' →
  rows raw' = rows raw ∧
  length (columns raw') = length (columns raw) ∧
  (((String.prefix "Unnamed" first = true) ∨ (first = "")) →
     columns raw' !! 0%nat = Some "Category" ∧ "Category" ∈ columns raw' ∧
     ("Category" ∉ missing raw') ∧
     ∀ i label, columns raw !! i = Some label → label ≠ first →
                columns raw' !! i = Some label) ∧
  (String.prefix "Unnamed" first = false → first ≠ "" → raw' = raw).
Proof.
  intros Hcols Hname. unfold name_first_column in Hname. rewrite Hcols in Hname.
  destruct (String.prefix "Unnamed" first || String.eqb first "") eqn:Htest.
  - injection Hname as <-. unfold rename. cbn [rows columns].
    split; [reflexivity |]. split; [by rewrite length_fmap |].
    split.
    + intros _.
      assert ((λ c, if String.eqb c first then "Category" else c) <$> columns raw
                = "Category" :: ((λ c, if String.eqb c first then "Category" else c) <$> rest))
        as Hren by (rewrite Hcols; cbn [fmap list_fmap]; by rewrite String.eqb_refl).
      rewrite Hren. split; [reflexivity |]. split; [left |]. split.
      * unfold missing. cbn [columns].
        intros Hin. apply list_elem_of_filter in Hin as [Hout _].
        apply Hout. left.
      * intros i label Hi Hne. rewrite <- Hren, list_lookup_fmap, Hi.
        cbn [fmap option_fmap option_map].
        destruct (String.eqb_spec label first); [done | reflexivity].
    + intros Hp He. rewrite Hp in Htest. cbn [orb] in Htest.
      apply String.eqb_eq in Htest. done.
  - injection Hname as <-.
    split; [reflexivity |]. split; [reflexivity |].
    apply orb_false_iff in Htest as [Hp He]. split.
    + intros [H | ->]; [congruence | discriminate].
    + reflexivity.
Qed.

Lemma name_first_column_spec_witness :
  "Category" ∈ columns (rename "Unnamed: 0" "Category"
                          (mkFrame ["Unnamed: 0"; "Pre-Model Correlation"]
                                   [[CStr "Food"; CStr "n/a"]])).
Proof.
  destruct (name_first_column_spec
              (mkFrame ["Unnamed: 0"; "Pre-Model Correlation"] [[CStr "Food"; CStr "n/a"]])
              (rename "Unnamed: 0" "Category"
                 (mkFrame ["Unnamed: 0"; "Pre-Model Correlation"] [[CStr "Food"; CStr "n/a"]]))
              "Unnamed: 0" ["Pre-Model Correlation"] eq_refl eq_refl)
    as (_ & _ & Hunnamed & _).
  apply Hunnamed. left. reflexivity.
Defined.

(** X11.  The list of missing columns holds needed columns only, each at
    most once and in the order Category, Pre-Model Correlation, Post-Model
    Importance (RF); it is empty exactly when the three are all present, and
    it never holds more than three names. *)
Theorem missing_is_ordered_part_of_needed (raw : DataFrame) :
  missing raw `sublist_of` needed_cols ∧
  NoDup (missing raw) ∧
  (length (missing raw) <= 3)%nat ∧
  (missing raw = [] ↔ ∀ col, col ∈ needed_cols → col ∈ columns raw).
Proof.
  assert (missing raw `sublist_of` needed_cols) as Hsub
    by (unfold missing; apply sublist_filter).
  split; [exact Hsub |]. split; [| split].
  - apply (sublist_NoDup _ needed_cols); [unfold needed_cols; compute_done | exact Hsub].
  - apply sublist_length in Hsub. exact Hsub.
  - split.
    + intros Hnil col Hcol.
      destruct (decide (col ∈ columns raw)) as [| Hout]; [done |].
      assert (col ∈ missing raw) as Hin
        by (unfold missing; apply list_elem_of_filter; done).
      rewrite Hnil in Hin. inversion Hin.
    + intros Hall. destruct (missing raw) as [| col rest] eqn:E; [done |].
      assert (col ∈ missing raw) as Hin by (rewrite E; left).
      unfold missing in Hin. apply list_elem_of_filter in Hin as [Hout Hneeded].
      destruct (Hout (Hall col Hneeded)).
Qed.

End LoaderExtras.

Section SelectionExtras.
Local Open Scope Q_scope.
Local Open Scope list_scope.

Variable parse_float : string → option Q.
Variable str_of_float : Q → string.

Lemma get_loc_insert (label l : string) (k : nat) (cols : list string) :
  label ≠ l →
  get_loc l (take k cols ++ label :: drop k cols) =
    (λ i, if decide (i < k)%nat then i else S i) <$> get_loc l cols.
Proof.
  intros Hne. revert k. induction cols as [| c cols IH]; intros k.
  - rewrite take_nil, drop_nil. cbn.
    destruct (String.eqb_spec label l); [done | reflexivity].
  - destruct k as [| k].
    + cbn [take drop app]. cbn [get_loc].
      destruct (String.eqb_spec label l); [done |].
      destruct (String.eqb c l); [reflexivity |].
      destruct (get_loc l cols); reflexivity.
    + cbn [take drop app get_loc].
      destruct (String.eqb c l).
      * cbn. destruct (decide (0 < S k)%nat); [reflexivity | lia].
      * rewrite IH. destruct (get_loc l cols) as [i |]; [| reflexivity].
        cbn. destruct (decide (i < k)%nat), (decide (S i < S k)%nat);
          (reflexivity || lia).
Qed.

Lemma lookup_insert_cell (k i : nat) (cell : Cell) (row : list Cell) :
  (k <= length row)%nat →
  (take k row ++ cell :: drop k row) !! (if decide (i < k)%nat then i else S i)
    = row !! i.
Proof.
  intros Hk. destruct (decide (i < k)%nat) as [Hi | Hi].
  - rewrite lookup_app_l by (rewrite length_take; lia).
    apply lookup_take_lt. exact Hi.
  - rewrite lookup_app_r by (rewrite length_take; lia).
    rewrite length_take, Nat.min_l by lia.
    replace (S i - k)%nat with (S (i - k)) by lia.
    rewrite lookup_cons, lookup_drop. f_equal. lia.
Qed.

Lemma at_label_insert (label l : string) (k : nat) (cols : list string)
    (cell : Cell) (row : list Cell) :
  label ≠ l → (k <= length row)%nat →
  at_label (take k cols ++ label :: drop k cols) l (take k row ++ cell :: drop k row)
    = at_label cols l row.
Proof.
  intros Hne Hk. unfold at_label. rewrite (get_loc_insert _ _ _ _ Hne).
  destruct (get_loc l cols) as [i |]; [| reflexivity].
  cbn [fmap option_fmap option_map]. by rewrite lookup_insert_cell.
Qed.

(** X12.  A column that is not one of the three needed ones is ignored:
    putting such a column, with any cells, at any place of a frame whose rows
    reach that place gives the same table of records. *)
Theorem unneeded_column_is_ignored (k : nat) (label : string) (cols : list string)
    (cells : list (list Cell * Cell)) :
  label ∉ needed_cols →
  (∀ p, p ∈ cells → (k <= length p.1)%nat) →
  select parse_float str_of_float
    (mkFrame (take k cols ++ label :: drop k cols)
             ((λ p, take k p.1 ++ p.2 :: drop k p.1) <$> cells))
  = select parse_float str_of_float (mkFrame cols (fst <$> cells)).
Proof.
  intros Hlabel Hlen. unfold select. cbn [columns rows].
  rewrite <- !list_fmap_compose. apply list_fmap_ext.
  intros i [row cell] Hi. unfold compose. cbn [fst snd].
  assert (k <= length row)%nat as Hk.
  { apply (Hlen (row, cell)). eapply list_elem_of_lookup_2. exact Hi. }
  unfold select_row.
  rewrite !at_label_insert; [reflexivity | | exact Hk | | exact Hk | | exact Hk];
    intros ->; apply Hlabel; unfold needed_cols; compute_done.
Qed.

(** X13.  When the first column is unnamed and no other column is labelled
    "Category", the cells of that first column become the categories of the
    table, a text cell as it stands. *)
Theorem unnamed_first_column_is_the_category (raw raw' : DataFrame)
    (first : string) (rest : list string) :
  columns raw = first :: rest →
  (String.prefix "Unnamed" first = true) ∨ (first = "") →
  "Category" ∉ rest →
  name_first_column raw = Some raw' →
  ∀ (i : nat) (cell : Cell) (others : list Cell),
    rows raw !! i = Some (cell :: others) →
    ∃ r, select parse_float str_of_float raw' !! i = Some r ∧
         Category r = astype_str str_of_float cell ∧
         ∀ s, cell = CStr s → Category r = s.
Proof.
  intros Hcols Hun _ Hname i cell others Hrow.
  unfold name_first_column in Hname. rewrite Hcols in Hname.
  assert (String.prefix "Unnamed" first || String.eqb first "" = true) as Htest.
  { destruct Hun as [-> | ->]; [reflexivity | apply orb_true_r]. }
  rewrite Htest in Hname. injection Hname as <-.
  unfold select, rename. cbn [columns rows].
  rewrite list_lookup_fmap, Hrow. cbn [fmap option_fmap option_map].
  eexists. split; [reflexivity |].
  unfold select_row. cbn [Category].
  assert (at_label ((λ c, if String.eqb c first then "Category" else c) <$> columns raw)
            "Category" (cell :: others) = cell) as ->.
  { rewrite Hcols. cbn [fmap list_fmap]. rewrite String.eqb_refl.
    reflexivity. }
  split; [reflexivity |]. by intros s ->.
Qed.

End SelectionExtras.

Section SelectionWitnesses.
Local Open Scope Q_scope.

Lemma unneeded_column_is_ignored_witness :
  select example_parse example_str
    (mkFrame ["Category"; "Notes"; "Pre-Model Correlation"; "Post-Model Importance (RF)"]
             [[CStr "Energy"; CStr "new"; CStr "n/a"; CStr "0.5"]])
  = select example_parse example_str
      (mkFrame ["Category"; "Pre-Model Correlation"; "Post-Model Importance (RF)"]
               [[CStr "Energy"; CStr "n/a"; CStr "0.5"]]).
Proof.
  apply (unneeded_column_is_ignored example_parse example_str 1 "Notes"
           ["Category"; "Pre-Model Correlation"; "Post-Model Importance (RF)"]
           [([CStr "Energy"; CStr "n/a"; CStr "0.5"], CStr "new")]).
  - unfold needed_cols. compute_done.
  - apply Forall_forall. repeat constructor.
Defined.

Lemma unnamed_first_column_is_the_category_witness :
  ∃ r, select example_parse example_str
         (rename "Unnamed: 0" "Category"
            (mkFrame ["Unnamed: 0"; "Pre-Model Correlation"] [[CStr "Food"; CStr "n/a"]]))
         !! 0%nat = Some r ∧
       Category r = astype_str example_str (CStr "Food") ∧
       ∀ s, CStr "Food" = CStr s → Category r = s.
Proof.
  apply (unnamed_first_column_is_the_category example_parse example_str
           (mkFrame ["Unnamed: 0"; "Pre-Model Correlation"] [[CStr "Food"; CStr "n/a"]])
           _ "Unnamed: 0" ["Pre-Model Correlation"] eq_refl
           (or_introl eq_refl) ltac:(compute_done) eq_refl 0%nat (CStr "Food") [CStr "n/a"]
           eq_refl).
Defined.

End SelectionWitnesses.

(** * Further properties of a run and of what it draws *)

Section RunExtras.
Local Open Scope Q_scope.

Variable parse_float : string → option Q.
Variable str_of_float : Q → string.


(** X15.  A frame that has the needed columns and no rows gives a complete
    run: a chart without markers, the neutral headline (the mean of no
    values is NaN) and an empty table. *)
Theorem run_without_rows (s : Session) (tariff_change : Q) (raw : DataFrame) :
  name_first_column (load_sensitivity_data s).1 = Some raw →
  NoDup (columns raw) →
  missing raw = [] →
  rows raw = [] →
  script parse_float str_of_float s tariff_change =
    (preamble (load_sensitivity_data s).2 ++ [
       Header "Adjust Tariff";
       PlotlyChart [];
       Success Neutral;
       Subheader "Numbers Behind the Bubbles";
       Dataframe [];
       Markdown how_to_read
     ], Completed)%list.
Proof.
  intros Hname _ Hmiss Hrows.
  rewrite (script_completed parse_float str_of_float s tariff_change raw Hname Hmiss).
  unfold select. rewrite Hrows. reflexivity.
Qed.


End RunExtras.

Section RendererExtras.
Local Open Scope Q_scope.

(** X17.  The summary table lists what the chart shows: its lines are, up
    to their order, the markers of the figure, each with its glyph and name
    as label, its estimated change and its sensitivity. *)
Theorem table_lists_the_markers (tariff_change : Q) (df : list CategoryRecord) :
  table (calculate tariff_change df) ≡ₚ
    (λ m, mkTableRow (marker_emoji m ++ " " ++ marker_name m)
            (marker_change m) (marker_sensitivity m))
      <$> fig (calculate tariff_change df).
Proof.
  unfold table, fig. rewrite merge_sort_Permutation, <- list_fmap_compose.
  match goal with |- ?a ≡ₚ ?b => assert (a = b) as ->; [| reflexivity] end.
  apply list_fmap_ext. intros _ row _.
  unfold compose, add_trace, table_row.
  by destruct (position_of (Category (record row))).
Qed.

(** X18.  The lookup tables of the renderer go together: positions, glyphs
    and colours are given for the same categories, which include the one
    with a display name of its own and all six of the demo table; no two of
    these categories share a position, and none sits at the fallback
    position (0, 0). *)
Theorem lookup_tables_are_consistent :
  dom positions = dom emoji_map ∧
  dom color_map = dom emoji_map ∧
  dom display_name_map ⊆ dom positions ∧
  (∀ row, row ∈ rows demo →
     ∃ c, at_label (columns demo) "Category" row = CStr c ∧ c ∈ dom positions) ∧
  (∀ c1 c2 x1 y1 x2 y2,
     positions !! c1 = Some (x1, y1) → positions !! c2 = Some (x2, y2) →
     x1 == x2 → y1 == y2 → c1 = c2) ∧
  (∀ c x y, positions !! c = Some (x, y) → ¬ (x == 0 ∧ y == 0)).
Proof.
  assert (∀ c p, positions !! c = Some p →
            (c, p) ∈ [("Food", (0.0, 1.0)); ("Apparel", (1.0, 1.0));
                      ("Transportation", (2.0, 1.0)); ("Housing", (0.3, 0.0));
                      ("Medical", (1.3, 0.0));
                      ("All Other Services Goods", (2.3, 0.0))]) as Hpos.
  { intros c p H. unfold positions in H. by apply elem_of_list_to_map_2 in H. }
  split; [compute_done |]. split; [compute_done |]. split; [compute_done |].
  split.
  { intros row Hrow. unfold demo in Hrow. cbn [rows] in Hrow.
    repeat (apply elem_of_cons in Hrow as [-> | Hrow];
            [eexists; split; [reflexivity | compute_done] |]).
    inversion Hrow. }
  split.
  - intros c1 c2 x1 y1 x2 y2 H1 H2 Hx Hy.
    apply Hpos in H1. apply Hpos in H2.
    repeat (apply elem_of_cons in H1 as [[= -> -> ->] | H1]);
      try (by inversion H1);
      repeat (apply elem_of_cons in H2 as [[= -> -> ->] | H2]);
      try (by inversion H2);
      try reflexivity;
      exfalso; revert Hx Hy; compute; congruence.
  - intros c x y H [Hx Hy]. apply Hpos in H.
    repeat (apply elem_of_cons in H as [[= -> -> ->] | H]);
      try (by inversion H); revert Hx Hy; compute; congruence.
Qed.

End RendererExtras.

Section RunWitnesses.
Local Open Scope Q_scope.

Lemma run_without_rows_witness :
  script example_parse example_str
    (mkSession ∅ (Some ("empty.csv",
       mkFrame ["Category"; "Pre-Model Correlation"; "Post-Model Importance (RF)"] []))) 2.0 =
    (preamble "uploaded CSV (empty.csv)" ++ [
       Header "Adjust Tariff";
       PlotlyChart [];
       Success Neutral;
       Subheader "Numbers Behind the Bubbles";
       Dataframe [];
       Markdown how_to_read
     ], Completed)%list.
Proof.
  pose proof (run_without_rows example_parse example_str
           (mkSession ∅ (Some ("empty.csv",
              mkFrame ["Category"; "Pre-Model Correlation"; "Post-Model Importance (RF)"] [])))
           2.0
           (mkFrame ["Category"; "Pre-Model Correlation"; "Post-Model Importance (RF)"] [])
           eq_refl ltac:(compute_done) eq_refl eq_refl) as Hrun.
  exact Hrun.
Defined.


End RunWitnesses.
